(** * The Zoho OAuth2 provider of [tools/auth]: a shallow embedding and its properties

    The development follows [tools/auth/zoho.go].  Go values of type
    [interface{}] are an inductive type, Go maps are stdpp's [gmap], a
    [(T, error)] result is a pair whose second component is an
    [option error], and a failed single-value type assertion is a [Panic]
    of the [outcome] monad.  The parts of the imported libraries that the
    provider calls ([strings], [golang-jwt/jwt/v4], [oauth2]) are embedded
    in modules of the same name; what these libraries delegate to codecs
    (base64url, [encoding/json]) is a record of functions the development
    is parametric in. *)

From Stdlib Require Import ZArith NArith Ascii String List Bool Lia.
From Stdlib Require Import Strings.Byte.
From stdpp Require Import base option strings gmap list.

Set Warnings "-register-all".
Local Open Scope string_scope.

(** ** Go values *)

(** The dynamic values an [interface{}] holds in this program: what
    [encoding/json] decodes into ([nil], [bool], [string], [float64],
    [[]interface{}], [map[string]interface{}]) and the [int64] that
    [oauth2.Token.Extra] can produce.  A [float64] is carried as its
    IEEE-754 bit pattern; the provider never inspects one. *)
Inductive any : Type :=
| Nil
| Bool (b : bool)
| Str (s : string)
| Float64 (bits : Z)
| Int64 (z : Z)
| Slice (l : list any)
| Map (m : gmap string any).

(** [m[k]] on a [map[string]interface{}]: the zero value [nil] when the key
    is absent. *)
Definition index (m : gmap string any) (k : string) : any :=
  default Nil (m !! k).

(** The name Go prints for the dynamic type of a value in a failed type
    assertion. *)
Definition typeName (v : any) : string :=
  match v with
  | Nil => "nil"
  | Bool _ => "bool"
  | Str _ => "string"
  | Float64 _ => "float64"
  | Int64 _ => "int64"
  | Slice _ => "[]interface {}"
  | Map _ => "map[string]interface {}"
  end.

(** The dynamic types of [error] values that occur: [errors.New] and
    [fmt.Errorf] without [%w] give a plain message, [fmt.Errorf] with [%w]
    wraps its operand, and [jwt.ValidationError] has an inner error, a
    bit field and a text. *)
Inductive error : Type :=
| errorString (s : string)
| wrapError (msg : string) (err : error)
| ValidationError (Inner : option error) (Errors : N) (text : string).

Fixpoint Error (e : error) : string :=
  match e with
  | errorString s => s
  | wrapError msg _ => msg
  | ValidationError (Some inner) _ _ => Error inner
  | ValidationError None _ text =>
      if String.eqb text "" then "token is invalid" else text
  end.

Definition errors_New (text : string) : error := errorString text.

(** [fmt.Errorf(prefix + "%w", err)] *)
Definition fmt_Errorf_w (prefix : string) (err : error) : error :=
  wrapError (prefix ++ Error err) err.

(** [fmt.Errorf(prefix + "%s", s)] *)
Definition fmt_Errorf_s (prefix : string) (s : string) : error :=
  errorString (prefix ++ s).

(** A library call that returns [(T, error)] and whose [T] is only used
    when the error is [nil]. *)
Inductive result (A : Type) : Type :=
| Ok (a : A)
| Err (e : error).
Arguments Ok {A} a.
Arguments Err {A} e.

(** A Go function body either returns or panics. *)
Inductive outcome (A : Type) : Type :=
| Return (a : A)
| Panic (msg : string).
Arguments Return {A} a.
Arguments Panic {A} msg.

#[global] Instance outcome_ret : MRet outcome := fun A a => Return a.

#[global] Instance outcome_bind : MBind outcome := fun A B k m =>
  match m with
  | Return a => k a
  | Panic msg => Panic msg
  end.

#[global] Instance outcome_fmap : FMap outcome := fun A B f m =>
  match m with
  | Return a => Return (f a)
  | Panic msg => Panic msg
  end.

(** [v.(string)], the single-value form: panics unless [v] holds a string. *)
Definition assertString (v : any) : outcome string :=
  match v with
  | Str s => Return s
  | _ => Panic ("interface conversion: interface {} is " ++ typeName v ++ ", not string")
  end.

(** [s, _ := v.(string)], the comma-ok form: the zero value on mismatch. *)
Definition assertStringOk (v : any) : string * bool :=
  match v with
  | Str s => (s, true)
  | _ => ("", false)
  end.

(** ** Package [strings] *)

Module strings.

(** [strings.Split(s, sep)] for a one-byte separator: the substrings
    between the separators, [[""]] for the empty string. *)
Fixpoint Split (s : string) (sep : ascii) : list string :=
  match s with
  | EmptyString => [EmptyString]
  | String c r =>
      if Ascii.eqb c sep then EmptyString :: Split r sep
      else match Split r sep with
           | [] => [String c EmptyString]
           | p :: ps => String c p :: ps
           end
  end.

Definition lowerByte (c : ascii) : ascii :=
  let n := nat_of_ascii c in
  if (65 <=? n)%nat && (n <=? 90)%nat then ascii_of_nat (n + 32) else c.

(** [strings.ToLower] on the ASCII letters.  Its only use is the test
    [HasPrefix(ToLower(s), "bearer ")], and the seven bytes of that
    prefix are lower-case images of ASCII letters (and a space) only. *)
Fixpoint ToLower (s : string) : string :=
  match s with
  | EmptyString => EmptyString
  | String c r => String (lowerByte c) (ToLower r)
  end.

Fixpoint HasPrefix (s prefix : string) : bool :=
  match prefix, s with
  | EmptyString, _ => true
  | String _ _, EmptyString => false
  | String p ps, String c r => Ascii.eqb c p && HasPrefix r ps
  end.

End strings.

(** ** Package [github.com/golang-jwt/jwt/v4] *)

Module jwt.

Definition ValidationErrorMalformed : N := 1.
Definition ValidationErrorUnverifiable : N := 2.

Definition NewValidationError (errorText : string) (errorFlags : N) : error :=
  ValidationError None errorFlags errorText.

(** What the parser delegates to: base64url decoding of a segment,
    [json.Unmarshal] into the header map, [json.Decoder.Decode] into the
    caller's (empty) claims map, and whether the process-wide table of
    signing methods has an entry for a name. *)
Record Lib : Type := {
  DecodeSegment : string -> result (list byte);
  json_Unmarshal : list byte -> result (gmap string any);
  json_Decode : list byte -> result (gmap string any);
  GetSigningMethod : string -> bool
}.

(** [Parser.ParseUnverified(tokenString, &claims)] with a zero [Parser]:
    [Ok claims] is a [nil] error with the claims map filled in.  The third
    segment is split off and never looked at. *)
Definition ParseUnverified (L : Lib) (tokenString : string) : result (gmap string any) :=
  match strings.Split tokenString "." with
  | [seg0; seg1; _] =>
      match DecodeSegment L seg0 with
      | Err err =>
          if strings.HasPrefix (strings.ToLower tokenString) "bearer "
          then Err (NewValidationError "tokenstring should not contain 'bearer '" ValidationErrorMalformed)
          else Err (ValidationError (Some err) ValidationErrorMalformed "")
      | Ok headerBytes =>
          match json_Unmarshal L headerBytes with
          | Err err => Err (ValidationError (Some err) ValidationErrorMalformed "")
          | Ok Header =>
              match DecodeSegment L seg1 with
              | Err err => Err (ValidationError (Some err) ValidationErrorMalformed "")
              | Ok claimBytes =>
                  match json_Decode L claimBytes with
                  | Err err => Err (ValidationError (Some err) ValidationErrorMalformed "")
                  | Ok claims =>
                      match index Header "alg" with
                      | Str method =>
                          if GetSigningMethod L method then Ok claims
                          else Err (NewValidationError "signing method (alg) is unavailable." ValidationErrorUnverifiable)
                      | _ => Err (NewValidationError "signing method (alg) is unspecified." ValidationErrorUnverifiable)
                      end
                  end
              end
          end
      end
  | _ => Err (NewValidationError "token contains an invalid number of segments" ValidationErrorMalformed)
  end.

(** [verifyAud]: [subtle.ConstantTimeCompare] is non-zero exactly on equal
    byte strings. *)
Definition verifyAud (aud : list string) (cmp : string) (required : bool) : bool :=
  match aud with
  | [] => negb required
  | _ =>
      let result := existsb (fun a => String.eqb a cmp) aud in
      let stringClaims := fold_left String.append aud "" in
      if (String.length stringClaims =? 0)%nat then negb required else result
  end.

(** The loop of [VerifyAudience] over a [[]interface{}]: [None] when an
    element is not a string. *)
Fixpoint audStrings (v : list any) : option (list string) :=
  match v with
  | [] => Some []
  | Str vs :: r =>
      match audStrings r with
      | Some aud => Some (vs :: aud)
      | None => None
      end
  | _ :: _ => None
  end.

(** [MapClaims.VerifyAudience(cmp, req)].  The [[]string] case of its type
    switch has no counterpart in [any]: decoded JSON arrays are
    [[]interface{}]. *)
Definition VerifyAudience (m : gmap string any) (cmp : string) (req : bool) : bool :=
  match index m "aud" with
  | Str v => verifyAud [v] cmp req
  | Slice v =>
      match audStrings v with
      | Some aud => verifyAud aud cmp req
      | None => false
      end
  | _ => verifyAud [] cmp req
  end.

End jwt.

(** ** Packages [time] and [golang.org/x/oauth2] *)

Module time.

(** A [time.Time], as the instant it denotes in nanoseconds, counted
    from the zero [Time]; the provider only hands it on. *)
Definition Time : Type := Z.

(** [time.Time{}] *)
Definition zero : Time := 0%Z.

End time.

Module oauth2.

(** What a non-nil pointer to an [oauth2.Token] refers to.  The private
    [raw] field is only reachable through the method [Extra], which is
    what the record carries: [Extra key] is [nil] for a key the token
    response did not have. *)
Record Token : Type := {
  AccessToken : string;
  TokenType : string;
  RefreshToken : string;
  Expiry : time.Time;
  Extra : string -> any
}.

(** [Token.WithExtra(extra)] for an [extra] that is a
    [map[string]interface{}]. *)
Definition WithExtra (t : Token) (extra : gmap string any) : Token :=
  {| AccessToken := AccessToken t;
     TokenType := TokenType t;
     RefreshToken := RefreshToken t;
     Expiry := Expiry t;
     Extra := index extra |}.

End oauth2.

(** ** Package [tools/types] *)

Module types.

(** The [DateTime] type, its zero value and [ParseDateTime], of which the
    provider uses the signature only: a value and an error. *)
Record Pkg : Type := {
  DateTime : Type;
  zeroDateTime : DateTime;
  ParseDateTime : time.Time -> DateTime * option error
}.

(** Modelled from the spec: the [DateTime] type and [ParseDateTime] of
    [tools/types], which are outside [zoho.go].  The spec has the expiry
    of the token converted "to the system's canonical time
    representation" and names no failure of this conversion: a
    [DateTime] holds the instant it was made from, the zero [DateTime]
    holds the zero [Time], and converting a [Time] returns its [DateTime]
    and a nil error. *)
Definition canonical : Pkg :=
  {| DateTime := time.Time;
     zeroDateTime := time.zero;
     ParseDateTime := fun t => (t, None) |}.

End types.

(** ** Package [tools/auth] *)

Inductive Context : Type := Background.

(** Modelled from the spec: the [BaseProvider] struct that [Zoho] embeds,
    declared outside [zoho.go].  [zoho.go] names the fields [ctx],
    [displayName], [pkce], [scopes], [authURL], [tokenURL] and [clientId];
    the spec's ProviderConfig adds [clientSecret], [redirectURL] and
    [userInfoURL]. *)
Record BaseProvider : Type := {
  ctx : Context;
  clientId : string;
  clientSecret : string;
  displayName : string;
  redirectURL : string;
  authURL : string;
  tokenURL : string;
  userInfoURL : string;
  scopes : list string;
  pkce : bool
}.

(** [NameZoho] is the unique name of the Zoho provider. *)
Definition NameZoho : string := "zoho".

(** [type Zoho struct { BaseProvider }] *)
Record Zoho : Type := { base : BaseProvider }.

(** Providers live on the heap and are handed around as pointers. *)
Abbreviation loc := positive.
Abbreviation heap := (gmap positive Zoho).

(** The value [NewZohoProvider] builds; the fields its literal leaves out
    have their zero value. *)
Definition zohoDefaults : Zoho :=
  {| base := {|
       ctx := Background;
       clientId := "";
       clientSecret := "";
       displayName := "Zoho";
       redirectURL := "";
       authURL := "https://accounts.zoho.com/oauth/v2/auth";
       tokenURL := "https://accounts.zoho.com/oauth/v2/token";
       userInfoURL := "";
       scopes := ["profile"; "email"; "openid"];
       pkce := true |} |}.

(** [NewZohoProvider]: [&Zoho{...}] allocates a new object. *)
Definition NewZohoProvider (h : heap) : loc * heap :=
  let l := fresh (dom h) in (l, <[l := zohoDefaults]> h).

(** Modelled from the spec: the type of the entries of the provider
    registry, which is declared outside [zoho.go]; the registry is a
    name-to-constructor table, and a constructor returns a brand-new
    instance. *)
Definition ProviderFactoryFunc : Type := heap -> loc * heap.

(** Modelled from the spec: [wrapFactory], declared outside [zoho.go],
    which turns the typed constructor of a provider into a table entry. *)
Definition wrapFactory (factory : heap -> loc * heap) : ProviderFactoryFunc :=
  fun h => factory h.

(** Modelled from the spec: the lookup [get(name)] of the registry,
    declared outside [zoho.go]: it calls the constructor registered under
    the name, and fails with "unknown provider" for a name without
    entry. *)
Definition registry_get (Providers : gmap string ProviderFactoryFunc) (name : string)
    (h : heap) : (option loc * option error) * heap :=
  match Providers !! name with
  | Some factory => let '(p, h') := factory h in ((Some p, None), h')
  | None => ((None, Some (errors_New ("unknown provider " ++ name))), h)
  end.

Definition withClientId (v : string) (z : Zoho) : Zoho :=
  let b := base z in
  {| base := {| ctx := ctx b; clientId := v; clientSecret := clientSecret b;
                displayName := displayName b; redirectURL := redirectURL b;
                authURL := authURL b; tokenURL := tokenURL b;
                userInfoURL := userInfoURL b; scopes := scopes b; pkce := pkce b |} |}.

Definition withClientSecret (v : string) (z : Zoho) : Zoho :=
  let b := base z in
  {| base := {| ctx := ctx b; clientId := clientId b; clientSecret := v;
                displayName := displayName b; redirectURL := redirectURL b;
                authURL := authURL b; tokenURL := tokenURL b;
                userInfoURL := userInfoURL b; scopes := scopes b; pkce := pkce b |} |}.

(** Modelled from the spec: the mutator of the client id of a provider,
    declared outside [zoho.go]; it assigns the field of the object the
    pointer refers to. *)
Definition SetClientId (p : loc) (v : string) (h : heap) : heap :=
  alter (withClientId v) p h.

(** Modelled from the spec: the mutator of the client secret, declared
    outside [zoho.go]. *)
Definition SetClientSecret (p : loc) (v : string) (h : heap) : heap :=
  alter (withClientSecret v) p h.

(** [func init()]: the provider registers itself under its name. *)
Definition init (Providers : gmap string ProviderFactoryFunc) : gmap string ProviderFactoryFunc :=
  <[NameZoho := wrapFactory NewZohoProvider]> Providers.

(** A [jwt.MapClaims] as a function returns it: [None] is the [nil] map. *)
Abbreviation MapClaims := (option (gmap string any)).

(** Indexing a possibly [nil] map. *)
Definition claimsIndex (claims : MapClaims) (k : string) : any :=
  index (default ∅ claims) k.

(** The issuers [parseIDToken] accepts, in the order of its literal. *)
Definition validIssuers : list string :=
  [ "https://accounts.zoho.com.au";
    "https://accounts.zohocloud.ca";
    "https://accounts.zoho.eu";
    "https://accounts.zoho.com";
    "https://accounts.zoho.in";
    "https://accounts.zoho.jp";
    "https://accounts.zoho.sa";
    "https://accounts.zoho.uk";
    "https://accounts.zoho.com.cn" ].

(** The loop over [validIssuers]: the final value of [isValidIssuer]. *)
Fixpoint isValidIssuer (issuer : string) (issuers : list string) : bool :=
  match issuers with
  | [] => false
  | validIssuer :: rest =>
      if String.eqb issuer validIssuer then true else isValidIssuer issuer rest
  end.

(** The issuer check passes: [iss] is a string of the allow-list. *)
Definition issuerAccepted (claims : gmap string any) : Prop :=
  exists iss, index claims "iss" = Str iss /\ In iss validIssuers.

(** The spec's words for the audience check, "[aud] contains the
    configured clientId": [aud] is that string, or an array with that
    string among its elements. *)
Definition audContains (claims : gmap string any) (cid : string) : bool :=
  match index claims "aud" with
  | Str a => String.eqb a cid
  | Slice l => existsb (fun v => match v with Str a => String.eqb a cid | _ => false end) l
  | _ => false
  end.

(** A segment of a compact JWT has no dot. *)
Fixpoint dotFree (s : string) : bool :=
  match s with
  | EmptyString => true
  | String c r => negb (Ascii.eqb c ".") && dotFree r
  end.

(** The compact serialization: three segments joined by dots. *)
Definition compact (header payload signature : string) : string :=
  header ++ "." ++ payload ++ "." ++ signature.

Section Provider.

Context (J : jwt.Lib) (T : types.Pkg).

(** Modelled from the spec: the [AuthUser] struct, declared outside
    [zoho.go]; these are the fields [FetchAuthUser] sets and the spec's
    AuthUser lists. *)
Record AuthUser : Type := {
  Id : string;
  Username : string;
  Name : string;
  Email : string;
  AvatarUrl : string;
  RawUser : MapClaims;
  AccessToken : string;
  RefreshToken : string;
  Expiry : types.DateTime T
}.

Definition setEmail (v : string) (u : AuthUser) : AuthUser :=
  {| Id := Id u; Username := Username u; Name := Name u; Email := v;
     AvatarUrl := AvatarUrl u; RawUser := RawUser u;
     AccessToken := AccessToken u; RefreshToken := RefreshToken u;
     Expiry := Expiry u |}.

Definition setExpiry (v : types.DateTime T) (u : AuthUser) : AuthUser :=
  {| Id := Id u; Username := Username u; Name := Name u; Email := Email u;
     AvatarUrl := AvatarUrl u; RawUser := RawUser u;
     AccessToken := AccessToken u; RefreshToken := RefreshToken u;
     Expiry := v |}.

Definition setRawUser (v : MapClaims) (u : AuthUser) : AuthUser :=
  {| Id := Id u; Username := Username u; Name := Name u; Email := Email u;
     AvatarUrl := AvatarUrl u; RawUser := v;
     AccessToken := AccessToken u; RefreshToken := RefreshToken u;
     Expiry := Expiry u |}.

(** [Zoho.parseIDToken], returning a [jwt.MapClaims] and an error. *)
Definition parseIDToken (p : Zoho) (rawIDToken : string) : MapClaims * option error :=
  match jwt.ParseUnverified J rawIDToken with
  | Err err => (None, Some (fmt_Errorf_w "failed to parse id_token: " err))
  | Ok claims =>
      (* verify issuer *)
      let issuer := fst (assertStringOk (index claims "iss")) in
      if negb (isValidIssuer issuer validIssuers)
      then (None, Some (fmt_Errorf_s "invalid id_token issuer: " issuer))
      (* verify audience *)
      else if negb (jwt.VerifyAudience claims (clientId (base p)) true)
      then (None, Some (errors_New "invalid id_token audience"))
      else (Some claims, None)
  end.

(** [Zoho.FetchAuthUser], returning a pointer to an [AuthUser] and an error.
    The fields of the struct literal are evaluated in the order written;
    [Expiry] starts as the zero value and is assigned last. *)
Definition FetchAuthUser (p : Zoho) (token : oauth2.Token)
    : outcome (option AuthUser * option error) :=
  let '(rawIDToken, ok) := assertStringOk (oauth2.Extra token "id_token") in
  if negb ok || String.eqb rawIDToken ""
  then mret (None, Some (errors_New "missing id_token"))
  else
    match parseIDToken p rawIDToken with
    | (_, Some err) => mret (None, Some err)
    | (claims, None) =>
        id ← assertString (claimsIndex claims "sub");
        username ← assertString (claimsIndex claims "email");
        name ← assertString (claimsIndex claims "name");
        email ← assertString (claimsIndex claims "email");
        avatarUrl ← assertString (claimsIndex claims "picture");
        let user :=
          {| Id := id;
             Username := username;
             Name := name;
             Email := email;
             AvatarUrl := avatarUrl;
             RawUser := claims;
             AccessToken := oauth2.AccessToken token;
             RefreshToken := oauth2.RefreshToken token;
             Expiry := types.zeroDateTime T |} in
        user ← match claimsIndex claims "email_verified" with
               | Bool true =>
                   email ← assertString (claimsIndex claims "email");
                   mret (setEmail email user)
               | _ => mret user
               end;
        let user := setExpiry (fst (types.ParseDateTime T (oauth2.Expiry token))) user in
        mret (Some user, None)
    end.

(** The same function with the [email_verified] statement deleted. *)
Definition FetchAuthUser_without_branch (p : Zoho) (token : oauth2.Token)
    : outcome (option AuthUser * option error) :=
  let '(rawIDToken, ok) := assertStringOk (oauth2.Extra token "id_token") in
  if negb ok || String.eqb rawIDToken ""
  then mret (None, Some (errors_New "missing id_token"))
  else
    match parseIDToken p rawIDToken with
    | (_, Some err) => mret (None, Some err)
    | (claims, None) =>
        id ← assertString (claimsIndex claims "sub");
        username ← assertString (claimsIndex claims "email");
        name ← assertString (claimsIndex claims "name");
        email ← assertString (claimsIndex claims "email");
        avatarUrl ← assertString (claimsIndex claims "picture");
        let user :=
          {| Id := id;
             Username := username;
             Name := name;
             Email := email;
             AvatarUrl := avatarUrl;
             RawUser := claims;
             AccessToken := oauth2.AccessToken token;
             RefreshToken := oauth2.RefreshToken token;
             Expiry := types.zeroDateTime T |} in
        let user := setExpiry (fst (types.ParseDateTime T (oauth2.Expiry token))) user in
        mret (Some user, None)
    end.

(** A result with the raw claims of the user, if any, blanked. *)
Definition eraseRawUser (r : option AuthUser * option error) : option AuthUser * option error :=
  (setRawUser None <$> fst r, snd r).

End Provider.

Arguments Id {T} _.
Arguments Username {T} _.
Arguments Name {T} _.
Arguments Email {T} _.
Arguments AvatarUrl {T} _.
Arguments RawUser {T} _.
Arguments AccessToken {T} _.
Arguments RefreshToken {T} _.
Arguments Expiry {T} _.

(** ** Instances for evaluating the provider on concrete inputs *)

(** A library instance with the identity as segment encoding, an RS256
    header in every token, and a table from payload segments to the
    claims they decode to. *)
Definition tableLib (payloads : gmap string (gmap string any)) : jwt.Lib :=
  {| jwt.DecodeSegment := fun seg => Ok (list_byte_of_string seg);
     jwt.json_Unmarshal := fun _ => Ok {[ "alg" := Str "RS256" ]};
     jwt.json_Decode := fun claimBytes =>
       match payloads !! string_of_list_byte claimBytes with
       | Some claims => Ok claims
       | None => Err (errors_New "invalid character in claims")
       end;
     jwt.GetSigningMethod := fun method => String.eqb method "RS256" |}.

(** The [types] package the test tokens are evaluated with: the one
    modelled from the spec. *)
Definition testTypes : types.Pkg := types.canonical.

(** A provider as the registry hands it out, with its client id set. *)
Definition testProvider : Zoho := withClientId "client-1" zohoDefaults.

Definition bareToken (expiry : time.Time) : oauth2.Token :=
  {| oauth2.AccessToken := "at";
     oauth2.TokenType := "Bearer";
     oauth2.RefreshToken := "rt";
     oauth2.Expiry := expiry;
     oauth2.Extra := fun _ => Nil |}.

(** A token response with the given extra fields. *)
Definition testToken (expiry : time.Time) (extra : gmap string any) : oauth2.Token :=
  oauth2.WithExtra (bareToken expiry) extra.

Definition idTokenExtra (raw : string) : gmap string any := {[ "id_token" := Str raw ]}.

(** The claims of the spec's example. *)
Definition exampleClaims : gmap string any :=
  list_to_map [
    ("iss", Str "https://accounts.zoho.com");
    ("aud", Str "client-1");
    ("sub", Str "123");
    ("email", Str "a@b.com");
    ("name", Str "A B");
    ("picture", Str "http://x/y.png") ].

(** Variants of the example's claims: without picture, with an issuer
    outside the allow-list, with another audience, with empty sub and
    email, and with the two values of email_verified. *)
Definition noPictureClaims : gmap string any := delete "picture" exampleClaims.

Definition zohoDeClaims : gmap string any :=
  <["iss" := Str "https://accounts.zoho.de"]> exampleClaims.

Definition otherAudienceClaims : gmap string any :=
  <["aud" := Str "client-2"]> exampleClaims.

Definition blankClaims : gmap string any :=
  <["sub" := Str ""]> (<["email" := Str ""]> exampleClaims).

Definition verifiedClaims : gmap string any :=
  <["email_verified" := Bool true]> exampleClaims.

Definition unverifiedClaims : gmap string any :=
  <["email_verified" := Bool false]> exampleClaims.

(** The payload segments of the test tokens and what they decode to. *)
Definition testPayloads : gmap string (gmap string any) :=
  list_to_map [
    ("example", exampleClaims);
    ("no-picture", noPictureClaims);
    ("zoho-de", zohoDeClaims);
    ("other-aud", otherAudienceClaims);
    ("blank", blankClaims);
    ("verified", verifiedClaims);
    ("unverified", unverifiedClaims) ].

Definition testLib : jwt.Lib := tableLib testPayloads.

(** A token response carrying the id_token with the given payload and
    signature segments. *)
Definition idToken (payload signature : string) : oauth2.Token :=
  testToken 1700000000%Z (idTokenExtra (compact "header" payload signature)).

(** The user of the spec's example, as returned for [idToken "example" _]. *)
Definition exampleUser : AuthUser testTypes :=
  {| Id := "123"; Username := "a@b.com"; Name := "A B"; Email := "a@b.com";
     AvatarUrl := "http://x/y.png"; RawUser := Some exampleClaims;
     AccessToken := "at"; RefreshToken := "rt";
     Expiry := (1700000000%Z : types.DateTime testTypes) |}.

(** The number of dots of a string: one less than the number of parts
    [strings.Split] cuts it into. *)
Fixpoint countDots (s : string) : nat :=
  match s with
  | EmptyString => 0
  | String c r => (if Ascii.eqb c "." then 1 else 0) + countDots r
  end.

Definition isStr (v : any) : bool :=
  match v with
  | Str _ => true
  | _ => false
  end.

(** The first of the claims asserted by the struct literal of
    [FetchAuthUser], in the order written, that does not hold a string. *)
Definition firstNonString (claims : gmap string any) : option string :=
  find (fun k => negb (isStr (index claims k))) ["sub"; "email"; "name"; "picture"].

(** A library instance like [tableLib] with the given header in every
    token. *)
Definition headerLib (Header : gmap string any)
    (payloads : gmap string (gmap string any)) : jwt.Lib :=
  {| jwt.DecodeSegment := fun seg => Ok (list_byte_of_string seg);
     jwt.json_Unmarshal := fun _ => Ok Header;
     jwt.json_Decode := fun claimBytes =>
       match payloads !! string_of_list_byte claimBytes with
       | Some claims => Ok claims
       | None => Err (errors_New "invalid character in claims")
       end;
     jwt.GetSigningMethod := fun method => String.eqb method "RS256" |}.

(** Claims with several audiences, and claims with a number among them. *)
Definition multiAudienceClaims : gmap string any :=
  <["aud" := Slice [Str "client-0"; Str "client-1"]]> exampleClaims.

Definition mixedAudienceClaims : gmap string any :=
  <["aud" := Slice [Str "client-1"; Float64 0]]> exampleClaims.

Definition audiencePayloads : gmap string (gmap string any) :=
  list_to_map [
    ("example", exampleClaims);
    ("multi", multiAudienceClaims);
    ("mixed", mixedAudienceClaims) ].

Definition audienceLib : jwt.Lib := tableLib audiencePayloads.

(** A token response like [idToken "example" "sig"] with another token
    type and a further extra field. *)
Definition macToken : oauth2.Token :=
  {| oauth2.AccessToken := "at";
     oauth2.TokenType := "MAC";
     oauth2.RefreshToken := "rt";
     oauth2.Expiry := 1700000000%Z;
     oauth2.Extra := index (<["scope" := Str "email"]>
                              (idTokenExtra (compact "header" "example" "sig"))) |}.

(** * Properties *)

(** ** The library functions *)

Lemma isValidIssuer_In (issuer : string) (issuers : list string) :
  isValidIssuer issuer issuers = true <-> In issuer issuers.
Proof.
  induction issuers as [|v rest IH]; simpl.
  - split; [discriminate | tauto].
  - destruct (String.eqb_spec issuer v) as [->|Hne].
    + tauto.
    + rewrite IH. split; [tauto | intros [Heq|Hin]; congruence].
Qed.

Lemma issuerAccepted_check (claims : gmap string any) :
  issuerAccepted claims <->
  isValidIssuer (fst (assertStringOk (index claims "iss"))) validIssuers = true.
Proof.
  rewrite isValidIssuer_In. unfold issuerAccepted. split.
  - intros (iss & -> & Hin). exact Hin.
  - destruct (index claims "iss") as [ | | iss | | | | ] eqn:E; simpl;
      try (intros H; vm_compute in H; repeat destruct H as [H|H]; try discriminate H; contradiction).
    intros Hin. eauto.
Qed.

Lemma ParseUnverified_empty (J : jwt.Lib) claims :
  jwt.ParseUnverified J "" <> Ok claims.
Proof. discriminate. Qed.

Lemma audStrings_existsb (cid : string) (v : list any) (aud : list string) :
  jwt.audStrings v = Some aud ->
  existsb (fun a => String.eqb a cid) aud =
  existsb (fun x => match x with Str a => String.eqb a cid | _ => false end) v.
Proof.
  revert aud. induction v as [|x r IH]; simpl; intros aud H.
  - by inversion H.
  - destruct x; try discriminate.
    destruct (jwt.audStrings r) as [aud'|]; [|discriminate].
    inversion H; subst. simpl. by rewrite (IH aud').
Qed.

Lemma verifyAud_required (aud : list string) (cid : string) :
  jwt.verifyAud aud cid true = true ->
  existsb (fun a => String.eqb a cid) aud = true.
Proof.
  unfold jwt.verifyAud. destruct aud as [|a r]; [discriminate|].
  destruct (_ =? 0)%nat; [discriminate | done].
Qed.

(** A passed audience check means that [aud] contains the client id. *)
Lemma VerifyAudience_audContains (claims : gmap string any) (cid : string) :
  jwt.VerifyAudience claims cid true = true -> audContains claims cid = true.
Proof.
  unfold jwt.VerifyAudience, audContains.
  destruct (index claims "aud") as [ | | a | | | l | ]; try discriminate.
  - intros H. apply verifyAud_required in H. simpl in H.
    by rewrite orb_false_r in H.
  - destruct (jwt.audStrings l) as [aud|] eqn:E; [|discriminate].
    intros H. apply verifyAud_required in H.
    by rewrite <- (audStrings_existsb cid l aud E).
Qed.

Lemma Split_not_nil (s : string) (sep : ascii) : strings.Split s sep <> [].
Proof.
  destruct s as [|c r]; simpl; [discriminate|].
  destruct (Ascii.eqb c sep); [discriminate|].
  destruct (strings.Split r sep); discriminate.
Qed.

Lemma Split_dotFree (s : string) : dotFree s = true -> strings.Split s "." = [s].
Proof.
  induction s as [|c r IH]; simpl; [done|].
  intros [Hc Hr]%andb_true_iff. apply negb_true_iff in Hc.
  by rewrite Hc, (IH Hr).
Qed.

Lemma Split_app_dot (s r : string) :
  dotFree s = true ->
  strings.Split (s ++ String "." r) "." = s :: strings.Split r ".".
Proof.
  induction s as [|c s' IH]; simpl; [done|].
  intros [Hc Hs]%andb_true_iff. apply negb_true_iff in Hc.
  by rewrite Hc, (IH Hs).
Qed.

Lemma compact_eq (header payload signature : string) :
  compact header payload signature =
  header ++ String "." (payload ++ String "." signature).
Proof. reflexivity. Qed.

Lemma Split_compact (header payload signature : string) :
  dotFree header = true -> dotFree payload = true -> dotFree signature = true ->
  strings.Split (compact header payload signature) "." = [header; payload; signature].
Proof.
  intros Hh Hp Hs. rewrite compact_eq.
  by rewrite (Split_app_dot _ _ Hh), (Split_app_dot _ _ Hp), (Split_dotFree _ Hs).
Qed.

(** Whether the lowered token starts with a dot-free prefix is settled
    before the first dot. *)
Lemma HasPrefix_ToLower_before_dot (prefix s r r' : string) :
  dotFree prefix = true ->
  strings.HasPrefix (strings.ToLower (s ++ String "." r)) prefix =
  strings.HasPrefix (strings.ToLower (s ++ String "." r')) prefix.
Proof.
  revert s. induction prefix as [|c ps IH]; intros s Hp; [by destruct s|].
  simpl in Hp. apply andb_true_iff in Hp as [Hc Hps]. apply negb_true_iff in Hc.
  destruct s as [|a s'].
  - change ("" ++ String "." r) with (String "." r).
    change ("" ++ String "." r') with (String "." r').
    cbn [strings.ToLower strings.HasPrefix].
    change (strings.lowerByte ".") with "."%char.
    by rewrite Ascii.eqb_sym, Hc.
  - change (String a s' ++ String "." r) with (String a (s' ++ String "." r)).
    change (String a s' ++ String "." r') with (String a (s' ++ String "." r')).
    cbn [strings.ToLower strings.HasPrefix].
    by rewrite (IH s' Hps).
Qed.

Lemma compact_not_empty (header payload signature : string) :
  compact header payload signature <> "".
Proof. rewrite compact_eq. by destruct header. Qed.

(** The parser's result does not depend on the third segment. *)
Lemma ParseUnverified_compact (J : jwt.Lib) (header payload sig1 sig2 : string) :
  dotFree header = true -> dotFree payload = true ->
  dotFree sig1 = true -> dotFree sig2 = true ->
  jwt.ParseUnverified J (compact header payload sig1) =
  jwt.ParseUnverified J (compact header payload sig2).
Proof.
  intros Hh Hp H1 H2. unfold jwt.ParseUnverified.
  rewrite !Split_compact by done.
  destruct (jwt.DecodeSegment J header); [done|].
  rewrite !compact_eq.
  by rewrite (HasPrefix_ToLower_before_dot "bearer " header
                (payload ++ String "." sig1) (payload ++ String "." sig2)).
Qed.

Section Properties.

Context (J : jwt.Lib) (T : types.Pkg).

(** What [parseIDToken] does once the parser has accepted the token. *)
Lemma parseIDToken_accepts (p : Zoho) (raw : string) (claims : gmap string any) :
  jwt.ParseUnverified J raw = Ok claims ->
  issuerAccepted claims ->
  jwt.VerifyAudience claims (clientId (base p)) true = true ->
  parseIDToken J p raw = (Some claims, None).
Proof.
  intros Hparse Hiss Haud. unfold parseIDToken. rewrite Hparse.
  apply issuerAccepted_check in Hiss. by rewrite Hiss, Haud.
Qed.

Lemma parseIDToken_accepted_inv (p : Zoho) (raw : string) (claims : MapClaims) :
  parseIDToken J p raw = (claims, None) ->
  exists c, claims = Some c /\ jwt.ParseUnverified J raw = Ok c /\
            issuerAccepted c /\
            jwt.VerifyAudience c (clientId (base p)) true = true.
Proof.
  unfold parseIDToken.
  destruct (jwt.ParseUnverified J raw) as [c|err]; [|discriminate].
  destruct (isValidIssuer _ validIssuers) eqn:Hiss; simpl; [|discriminate].
  destruct (jwt.VerifyAudience c _ true) eqn:Haud; simpl; [|discriminate].
  intros H; inversion H; subst. exists c. repeat split; try done.
  by apply issuerAccepted_check.
Qed.

(** The first statement of [FetchAuthUser]. *)
Lemma FetchAuthUser_with_id_token (p : Zoho) (token : oauth2.Token) (raw : string) :
  oauth2.Extra token "id_token" = Str raw ->
  raw <> "" ->
  FetchAuthUser J T p token =
    match parseIDToken J p raw with
    | (_, Some err) => mret (None, Some err)
    | (claims, None) =>
        id ← assertString (claimsIndex claims "sub");
        username ← assertString (claimsIndex claims "email");
        name ← assertString (claimsIndex claims "name");
        email ← assertString (claimsIndex claims "email");
        avatarUrl ← assertString (claimsIndex claims "picture");
        let user :=
          {| Id := id; Username := username; Name := name; Email := email;
             AvatarUrl := avatarUrl; RawUser := claims;
             AccessToken := oauth2.AccessToken token;
             RefreshToken := oauth2.RefreshToken token;
             Expiry := types.zeroDateTime T |} in
        user ← match claimsIndex claims "email_verified" with
               | Bool true =>
                   email ← assertString (claimsIndex claims "email");
                   mret (setEmail T email user)
               | _ => mret user
               end;
        mret (Some (setExpiry T (fst (types.ParseDateTime T (oauth2.Expiry token))) user), None)
    end.
Proof.
  intros Hextra Hne. unfold FetchAuthUser. rewrite Hextra. simpl.
  destruct (String.eqb_spec raw "") as [->|_]; [done | reflexivity].
Qed.

(** The extraction step on claims that have the four strings. *)
Lemma FetchAuthUser_extracts (p : Zoho) (token : oauth2.Token) (raw : string)
    (claims : gmap string any) (sub email name picture : string) :
  oauth2.Extra token "id_token" = Str raw ->
  parseIDToken J p raw = (Some claims, None) ->
  index claims "sub" = Str sub ->
  index claims "email" = Str email ->
  index claims "name" = Str name ->
  index claims "picture" = Str picture ->
  FetchAuthUser J T p token =
    Return (Some {| Id := sub; Username := email; Name := name; Email := email;
                    AvatarUrl := picture; RawUser := Some claims;
                    AccessToken := oauth2.AccessToken token;
                    RefreshToken := oauth2.RefreshToken token;
                    Expiry := fst (types.ParseDateTime T (oauth2.Expiry token)) |},
            None).
Proof.
  intros Hextra Hparse Hsub Hemail Hname Hpicture.
  assert (raw <> "") as Hne.
  { intros ->. apply parseIDToken_accepted_inv in Hparse as (c & _ & Hc & _).
    by apply ParseUnverified_empty in Hc. }
  rewrite (FetchAuthUser_with_id_token p token raw Hextra Hne), Hparse.
  unfold claimsIndex. simpl. rewrite Hsub, Hemail, Hname, Hpicture. simpl.
  by destruct (index claims "email_verified") as [ | [|] | | | | | ].
Qed.

(** C1: for a token whose id_token parses to claims that pass the issuer
    and audience checks and have string claims sub, email, name and
    picture, [FetchAuthUser] returns, with a nil error, the AuthUser whose
    id is sub, whose username and email are both the email claim, whose
    name is name and whose avatarUrl is picture. *)
Theorem FetchAuthUser_valid_id_token (p : Zoho) (token : oauth2.Token) (raw : string)
    (claims : gmap string any) (sub email name picture : string) :
  oauth2.Extra token "id_token" = Str raw ->
  jwt.ParseUnverified J raw = Ok claims ->
  issuerAccepted claims ->
  jwt.VerifyAudience claims (clientId (base p)) true = true ->
  index claims "sub" = Str sub ->
  index claims "email" = Str email ->
  index claims "name" = Str name ->
  index claims "picture" = Str picture ->
  exists u : AuthUser T,
    FetchAuthUser J T p token = Return (Some u, None) /\
    Id u = sub /\ Username u = email /\ Name u = name /\
    Email u = email /\ AvatarUrl u = picture.
Proof.
  intros Hextra Hparse Hiss Haud Hsub Hemail Hname Hpicture.
  eexists. split.
  - eapply FetchAuthUser_extracts; eauto using parseIDToken_accepts.
  - simpl. auto.
Qed.

(** C2: when the parsed claims have no iss, an iss that is not a string,
    or a string iss outside the allow-list, [parseIDToken] returns the nil
    claims and the error "invalid id_token issuer: <iss>", and
    [FetchAuthUser] returns that error and no AuthUser. *)
Theorem parseIDToken_rejects_issuer (p : Zoho) (raw : string) (claims : gmap string any) :
  jwt.ParseUnverified J raw = Ok claims ->
  (forall iss, index claims "iss" = Str iss -> ~ In iss validIssuers) ->
  let err := fmt_Errorf_s "invalid id_token issuer: "
               (fst (assertStringOk (index claims "iss"))) in
  parseIDToken J p raw = (None, Some err) /\
  forall token, oauth2.Extra token "id_token" = Str raw ->
    FetchAuthUser J T p token = Return (None, Some err).
Proof.
  intros Hparse Hiss err.
  assert (parseIDToken J p raw = (None, Some err)) as Hp.
  { unfold parseIDToken. rewrite Hparse.
    destruct (isValidIssuer _ validIssuers) eqn:E; [|done].
    apply issuerAccepted_check in E as (iss & Heq & Hin).
    by destruct (Hiss iss Heq). }
  split; [exact Hp|].
  intros token Hextra.
  destruct (String.eqb_spec raw "") as [->|Hne].
  - by apply ParseUnverified_empty in Hparse.
  - by rewrite (FetchAuthUser_with_id_token p token raw Hextra Hne), Hp.
Qed.

(** C3: when the parsed claims pass the issuer check and aud does not
    contain the client id (aud absent included), [parseIDToken] returns
    the nil claims and the error "invalid id_token audience", and so does
    [FetchAuthUser]; whenever [parseIDToken] returns claims, their aud
    contains the client id. *)
Theorem parseIDToken_rejects_audience (p : Zoho) (raw : string) (claims : gmap string any) :
  jwt.ParseUnverified J raw = Ok claims ->
  issuerAccepted claims ->
  (audContains claims (clientId (base p)) = false ->
     parseIDToken J p raw = (None, Some (errors_New "invalid id_token audience")) /\
     forall token, oauth2.Extra token "id_token" = Str raw ->
       FetchAuthUser J T p token =
         Return (None, Some (errors_New "invalid id_token audience"))) /\
  (forall c, parseIDToken J p raw = (Some c, None) ->
     audContains c (clientId (base p)) = true).
Proof.
  intros Hparse Hiss. split.
  - intros Haud.
    assert (parseIDToken J p raw = (None, Some (errors_New "invalid id_token audience"))) as Hp.
    { unfold parseIDToken. rewrite Hparse.
      apply issuerAccepted_check in Hiss. rewrite Hiss. simpl.
      destruct (jwt.VerifyAudience claims _ true) eqn:E; [|done].
      apply VerifyAudience_audContains in E. congruence. }
    split; [exact Hp|].
    intros token Hextra.
    destruct (String.eqb_spec raw "") as [->|Hne].
    + by apply ParseUnverified_empty in Hparse.
    + by rewrite (FetchAuthUser_with_id_token p token raw Hextra Hne), Hp.
  - intros c Hc.
    apply parseIDToken_accepted_inv in Hc as (c' & Heq & _ & _ & Haud).
    inversion Heq; subst. by apply VerifyAudience_audContains.
Qed.

(** C4: when the id_token extra field of the token is absent, is not a
    string, or is the empty string, [FetchAuthUser] returns the error
    "missing id_token" and a nil AuthUser. *)
Theorem FetchAuthUser_missing_id_token (p : Zoho) (token : oauth2.Token) :
  (forall s, oauth2.Extra token "id_token" = Str s -> s = "") ->
  FetchAuthUser J T p token = Return (None, Some (errors_New "missing id_token")).
Proof.
  intros H. unfold FetchAuthUser.
  destruct (oauth2.Extra token "id_token") as [ | | s | | | | ]; try reflexivity.
  by rewrite (H s eq_refl).
Qed.

(** Each of the five single-value assertions of the struct literal and
    the one in the branch has succeeded when [FetchAuthUser] returns a
    user. *)
Lemma FetchAuthUser_success_inv (p : Zoho) (token : oauth2.Token) (u : AuthUser T)
    (e : option error) :
  FetchAuthUser J T p token = Return (Some u, e) ->
  exists raw claims,
    oauth2.Extra token "id_token" = Str raw /\ raw <> "" /\
    parseIDToken J p raw = (Some claims, None) /\
    index claims "sub" = Str (Id u) /\
    index claims "email" = Str (Email u) /\
    index claims "name" = Str (Name u) /\
    index claims "picture" = Str (AvatarUrl u) /\
    Username u = Email u /\ RawUser u = Some claims /\
    AccessToken u = oauth2.AccessToken token /\
    RefreshToken u = oauth2.RefreshToken token /\
    Expiry u = fst (types.ParseDateTime T (oauth2.Expiry token)) /\
    e = None.
Proof.
  intros H.
  destruct (oauth2.Extra token "id_token") as [ | | raw | | | | ] eqn:Hextra;
    try (unfold FetchAuthUser in H; rewrite Hextra in H; discriminate H).
  destruct (String.eqb_spec raw "") as [->|Hne].
  { unfold FetchAuthUser in H; rewrite Hextra in H; discriminate H. }
  rewrite (FetchAuthUser_with_id_token p token raw Hextra Hne) in H.
  destruct (parseIDToken J p raw) as [claims [err|]] eqn:Hp; [discriminate H|].
  destruct (parseIDToken_accepted_inv p raw claims Hp) as (c & -> & _).
  unfold claimsIndex in H. simpl in H.
  destruct (index c "sub") as [ | | sub | | | | ] eqn:Hsub; try discriminate H.
  destruct (index c "email") as [ | | email | | | | ] eqn:Hemail; try discriminate H.
  destruct (index c "name") as [ | | name | | | | ] eqn:Hname; try discriminate H.
  destruct (index c "picture") as [ | | picture | | | | ] eqn:Hpicture; try discriminate H.
  simpl in H.
  exists raw, c.
  destruct (index c "email_verified") as [ | [|] | | | | | ];
    simpl in H; inversion H; subst; simpl; rewrite ?Hemail; by repeat split.
Qed.

(** C5, as the code has it: on every input on which [FetchAuthUser]
    returns a user and a nil error, the id and email of the user are the
    string values of the sub and email claims of the accepted id_token,
    and the username is the email; so each is empty exactly when its
    claim is the empty string. *)
Theorem FetchAuthUser_id_email_are_claims (p : Zoho) (token : oauth2.Token) (u : AuthUser T) :
  FetchAuthUser J T p token = Return (Some u, None) ->
  exists raw claims,
    oauth2.Extra token "id_token" = Str raw /\
    parseIDToken J p raw = (Some claims, None) /\
    index claims "sub" = Str (Id u) /\
    index claims "email" = Str (Email u) /\
    Username u = Email u.
Proof.
  intros H.
  destruct (FetchAuthUser_success_inv p token u None H)
    as (raw & claims & ? & ? & ? & ? & ? & ? & ? & ? & _).
  exists raw, claims. by repeat split.
Qed.

(** The statement guarded by [email_verified] changes nothing. *)
Lemma FetchAuthUser_branch_noop (p : Zoho) (token : oauth2.Token) :
  FetchAuthUser J T p token = FetchAuthUser_without_branch J T p token.
Proof.
  unfold FetchAuthUser, FetchAuthUser_without_branch.
  destruct (assertStringOk (oauth2.Extra token "id_token")) as [raw ok].
  destruct (negb ok || String.eqb raw ""); [done|].
  destruct (parseIDToken J p raw) as [claims [err|]]; [done|].
  destruct (claimsIndex claims "sub"); try done.
  destruct (claimsIndex claims "email") eqn:Hemail; try done.
  destruct (claimsIndex claims "name"); try done.
  destruct (claimsIndex claims "picture"); try done.
  simpl. by destruct (claimsIndex claims "email_verified") as [ | [|] | | | | | ].
Qed.

(** C7, as the code has it: for two tokens that are equal up to their
    id_tokens, whose claims agree on every key but email_verified,
    [FetchAuthUser] gives the same outcome up to the RawUser field of the
    user, which is the respective claims map; the email of a returned
    user is the string of the email claim; and deleting the
    email_verified statement does not change the function. *)
Theorem FetchAuthUser_email_verified_irrelevant (p : Zoho) (token1 token2 : oauth2.Token)
    (raw1 raw2 : string) (claims1 claims2 : gmap string any) :
  oauth2.Extra token1 "id_token" = Str raw1 ->
  oauth2.Extra token2 "id_token" = Str raw2 ->
  oauth2.AccessToken token1 = oauth2.AccessToken token2 ->
  oauth2.RefreshToken token1 = oauth2.RefreshToken token2 ->
  oauth2.Expiry token1 = oauth2.Expiry token2 ->
  jwt.ParseUnverified J raw1 = Ok claims1 ->
  jwt.ParseUnverified J raw2 = Ok claims2 ->
  (forall k, k <> "email_verified" -> claims1 !! k = claims2 !! k) ->
  eraseRawUser T <$> FetchAuthUser J T p token1 =
    eraseRawUser T <$> FetchAuthUser J T p token2 /\
  (forall u, FetchAuthUser J T p token1 = Return (Some u, None) ->
     index claims1 "email" = Str (Email u)) /\
  FetchAuthUser J T p token1 = FetchAuthUser_without_branch J T p token1.
Proof.
  intros Hx1 Hx2 Hat Hrt Hexp Hp1 Hp2 Hagree.
  assert (forall k, k <> "email_verified" -> index claims1 k = index claims2 k) as Hidx.
  { intros k Hk. unfold index. by rewrite (Hagree k Hk). }
  split; [|split].
  - rewrite !FetchAuthUser_branch_noop. unfold FetchAuthUser_without_branch.
    rewrite Hx1, Hx2. simpl.
    destruct (String.eqb_spec raw1 "") as [->|_];
      [by apply ParseUnverified_empty in Hp1|].
    destruct (String.eqb_spec raw2 "") as [->|_];
      [by apply ParseUnverified_empty in Hp2|].
    unfold parseIDToken. rewrite Hp1, Hp2.
    unfold jwt.VerifyAudience.
    rewrite (Hidx "iss") by done. rewrite (Hidx "aud") by done.
    destruct (isValidIssuer _ validIssuers); simpl; [|done].
    destruct (match index claims2 "aud" with Str _ => _ | _ => _ end); simpl; [|done].
    unfold claimsIndex. simpl.
    rewrite (Hidx "sub"), (Hidx "email"), (Hidx "name"), (Hidx "picture") by done.
    destruct (index claims2 "sub"); try done.
    destruct (index claims2 "email"); try done.
    destruct (index claims2 "name"); try done.
    destruct (index claims2 "picture"); try done.
    simpl. unfold eraseRawUser, setRawUser. simpl. by rewrite Hat, Hrt, Hexp.
  - intros u Hu.
    destruct (FetchAuthUser_success_inv p token1 u None Hu)
      as (raw & claims & Hraw & _ & Hparse & _ & Hemail & _).
    rewrite Hx1 in Hraw. inversion Hraw; subst raw.
    apply parseIDToken_accepted_inv in Hparse as (c & Hc & Hpc & _).
    inversion Hc; subst c. congruence.
  - apply FetchAuthUser_branch_noop.
Qed.

(** C9: two compact tokens with the same header and payload segments
    and any two signature segments get the same result from
    [parseIDToken], and two tokens that differ only in such id_tokens
    get the same outcome from [FetchAuthUser]. *)
Theorem parseIDToken_ignores_signature (p : Zoho) (header payload sig1 sig2 : string) :
  dotFree header = true -> dotFree payload = true ->
  dotFree sig1 = true -> dotFree sig2 = true ->
  parseIDToken J p (compact header payload sig1) =
    parseIDToken J p (compact header payload sig2) /\
  forall token1 token2,
    oauth2.Extra token1 "id_token" = Str (compact header payload sig1) ->
    oauth2.Extra token2 "id_token" = Str (compact header payload sig2) ->
    oauth2.AccessToken token1 = oauth2.AccessToken token2 ->
    oauth2.RefreshToken token1 = oauth2.RefreshToken token2 ->
    oauth2.Expiry token1 = oauth2.Expiry token2 ->
    FetchAuthUser J T p token1 = FetchAuthUser J T p token2.
Proof.
  intros Hh Hp H1 H2.
  assert (parseIDToken J p (compact header payload sig1) =
          parseIDToken J p (compact header payload sig2)) as Heq.
  { unfold parseIDToken.
    by rewrite (ParseUnverified_compact J header payload sig1 sig2). }
  split; [exact Heq|].
  intros token1 token2 Hx1 Hx2 Hat Hrt Hexp.
  rewrite (FetchAuthUser_with_id_token p token1 _ Hx1 (compact_not_empty _ _ _)).
  rewrite (FetchAuthUser_with_id_token p token2 _ Hx2 (compact_not_empty _ _ _)).
  by rewrite Heq, Hat, Hrt, Hexp.
Qed.

(** On an accepted id_token with one of the four claims missing or not a
    string, the single-value assertion panics. *)
Lemma FetchAuthUser_panics (p : Zoho) (token : oauth2.Token) (raw : string)
    (claims : gmap string any) (k : string) :
  oauth2.Extra token "id_token" = Str raw ->
  parseIDToken J p raw = (Some claims, None) ->
  In k ["sub"; "email"; "name"; "picture"] ->
  (forall s, index claims k <> Str s) ->
  exists msg, FetchAuthUser J T p token = Panic msg.
Proof.
  intros Hextra Hparse Hk Hns.
  assert (raw <> "") as Hne.
  { intros ->. apply parseIDToken_accepted_inv in Hparse as (c & _ & Hc & _).
    by apply ParseUnverified_empty in Hc. }
  rewrite (FetchAuthUser_with_id_token p token raw Hextra Hne), Hparse.
  unfold claimsIndex. simpl.
  destruct (index claims "sub") eqn:Hsub; try (eexists; reflexivity).
  destruct (index claims "email") eqn:Hemail; try (eexists; reflexivity).
  destruct (index claims "name") eqn:Hname; try (eexists; reflexivity).
  destruct (index claims "picture") eqn:Hpicture; try (eexists; reflexivity).
  simpl in Hk. destruct Hk as [<-|[<-|[<-|[<-|[]]]]]; exfalso; eapply Hns; eassumption.
Qed.

End Properties.


(** ** The registry *)

(** C8: from any table and any heap, two successive lookups of "zoho" in
    the table after [init] succeed and return two different, newly
    allocated pointers, each to a Zoho with scopes profile, email,
    openid, the PKCE flag set and the display name "Zoho"; setting the
    client id or the client secret through one pointer changes the object
    of that pointer and leaves the object of the other as it was. *)
Theorem registry_get_zoho_fresh (Providers : gmap string ProviderFactoryFunc) (h : heap) :
  exists (l1 l2 : loc) (h1 h2 : heap),
    registry_get (init Providers) "zoho" h = ((Some l1, None), h1) /\
    registry_get (init Providers) "zoho" h1 = ((Some l2, None), h2) /\
    h !! l1 = None /\ h1 !! l2 = None /\ l1 <> l2 /\
    h2 !! l1 = Some zohoDefaults /\ h2 !! l2 = Some zohoDefaults /\
    scopes (base zohoDefaults) = ["profile"; "email"; "openid"] /\
    pkce (base zohoDefaults) = true /\
    displayName (base zohoDefaults) = "Zoho" /\
    forall v : string,
      SetClientId l1 v h2 !! l1 = Some (withClientId v zohoDefaults) /\
      SetClientId l1 v h2 !! l2 = Some zohoDefaults /\
      SetClientSecret l1 v h2 !! l1 = Some (withClientSecret v zohoDefaults) /\
      SetClientSecret l1 v h2 !! l2 = Some zohoDefaults /\
      SetClientId l2 v h2 !! l1 = Some zohoDefaults /\
      SetClientSecret l2 v h2 !! l1 = Some zohoDefaults.
Proof.
  set (l1 := fresh (dom h)).
  set (h1 := <[l1 := zohoDefaults]> h).
  set (l2 := fresh (dom h1)).
  set (h2 := <[l2 := zohoDefaults]> h1).
  assert (h !! l1 = None) as Hl1.
  { apply not_elem_of_dom. apply is_fresh. }
  assert (h1 !! l2 = None) as Hl2.
  { apply not_elem_of_dom. apply is_fresh. }
  assert (l1 <> l2) as Hne.
  { intros Heq. rewrite <- Heq in Hl2. unfold h1 in Hl2.
    by rewrite lookup_insert_eq in Hl2. }
  assert (h2 !! l1 = Some zohoDefaults) as H21.
  { unfold h2, h1. rewrite lookup_insert_ne by done. apply lookup_insert_eq. }
  assert (h2 !! l2 = Some zohoDefaults) as H22.
  { unfold h2. apply lookup_insert_eq. }
  exists l1, l2, h1, h2.
  assert (forall H, registry_get (init Providers) "zoho" H =
                    ((Some (fresh (dom H)), None), <[fresh (dom H) := zohoDefaults]> H)) as Hget.
  { intros H. unfold registry_get, init, NameZoho. by rewrite lookup_insert_eq. }
  repeat split; try done; try apply Hget.
  all: unfold SetClientId, SetClientSecret.
  all: rewrite ?lookup_alter_eq, ?lookup_alter_ne by done.
  all: by rewrite ?H21, ?H22.
Qed.

(** ** The provider on the test tokens *)

Lemma testLib_parses (payload signature : string) (claims : gmap string any) :
  dotFree payload = true -> dotFree signature = true ->
  testPayloads !! payload = Some claims ->
  jwt.ParseUnverified testLib (compact "header" payload signature) = Ok claims.
Proof.
  intros Hp Hs Hl. unfold jwt.ParseUnverified.
  rewrite Split_compact by done. simpl.
  rewrite string_of_list_byte_of_string. by rewrite Hl.
Qed.

Lemma exampleClaims_issuer (claims : gmap string any) :
  index claims "iss" = Str "https://accounts.zoho.com" -> issuerAccepted claims.
Proof.
  intros H. exists "https://accounts.zoho.com". split; [exact H|].
  simpl. tauto.
Qed.

Lemma FetchAuthUser_valid_id_token_witness :
  exists u : AuthUser testTypes,
    FetchAuthUser testLib testTypes testProvider (idToken "example" "sig") =
      Return (Some u, None) /\
    Id u = "123" /\ Username u = "a@b.com" /\ Name u = "A B" /\
    Email u = "a@b.com" /\ AvatarUrl u = "http://x/y.png".
Proof.
  apply (FetchAuthUser_valid_id_token testLib testTypes testProvider
           (idToken "example" "sig") (compact "header" "example" "sig") exampleClaims).
  - reflexivity.
  - by apply testLib_parses.
  - by apply exampleClaims_issuer.
  - reflexivity.
  - reflexivity.
  - reflexivity.
  - reflexivity.
  - reflexivity.
Defined.

Lemma parseIDToken_rejects_issuer_witness :
  parseIDToken testLib testProvider (compact "header" "zoho-de" "sig") =
    (None, Some (errorString "invalid id_token issuer: https://accounts.zoho.de")) /\
  forall token,
    oauth2.Extra token "id_token" = Str (compact "header" "zoho-de" "sig") ->
    FetchAuthUser testLib testTypes testProvider token =
      Return (None, Some (errorString "invalid id_token issuer: https://accounts.zoho.de")).
Proof.
  apply (parseIDToken_rejects_issuer testLib testTypes testProvider
           (compact "header" "zoho-de" "sig") zohoDeClaims).
  - by apply testLib_parses.
  - intros iss Hiss. vm_compute in Hiss. inversion Hiss; subst iss.
    simpl. intros Hin. repeat destruct Hin as [Hin|Hin]; discriminate Hin || exact Hin.
Defined.

Lemma parseIDToken_rejects_audience_witness :
  audContains otherAudienceClaims (clientId (base testProvider)) = false /\
  parseIDToken testLib testProvider (compact "header" "other-aud" "sig") =
    (None, Some (errors_New "invalid id_token audience")) /\
  FetchAuthUser testLib testTypes testProvider (idToken "other-aud" "sig") =
    Return (None, Some (errors_New "invalid id_token audience")).
Proof.
  assert (audContains otherAudienceClaims (clientId (base testProvider)) = false) as Haud
    by reflexivity.
  destruct (parseIDToken_rejects_audience testLib testTypes testProvider
              (compact "header" "other-aud" "sig") otherAudienceClaims) as [Hreject _].
  - by apply testLib_parses.
  - by apply exampleClaims_issuer.
  - destruct (Hreject Haud) as [Hparse Hfetch].
    split; [exact Haud|]. split; [exact Hparse|].
    apply Hfetch. reflexivity.
Defined.

Lemma FetchAuthUser_missing_id_token_witness :
  FetchAuthUser testLib testTypes testProvider (testToken 0%Z ∅) =
    Return (None, Some (errors_New "missing id_token")) /\
  FetchAuthUser testLib testTypes testProvider (testToken 0%Z (idTokenExtra "")) =
    Return (None, Some (errors_New "missing id_token")) /\
  FetchAuthUser testLib testTypes testProvider (testToken 0%Z {[ "id_token" := Bool true ]}) =
    Return (None, Some (errors_New "missing id_token")).
Proof.
  split; [|split].
  - apply (FetchAuthUser_missing_id_token testLib testTypes testProvider).
    intros s H. vm_compute in H. discriminate H.
  - apply (FetchAuthUser_missing_id_token testLib testTypes testProvider).
    intros s H. vm_compute in H. by inversion H.
  - apply (FetchAuthUser_missing_id_token testLib testTypes testProvider).
    intros s H. vm_compute in H. discriminate H.
Defined.

Lemma example_fetch :
  FetchAuthUser testLib testTypes testProvider (idToken "example" "sig") =
    Return (Some exampleUser, None).
Proof.
  apply (FetchAuthUser_extracts testLib testTypes testProvider
           (idToken "example" "sig") (compact "header" "example" "sig") exampleClaims
           "123" "a@b.com" "A B" "http://x/y.png"); reflexivity.
Defined.

Lemma FetchAuthUser_id_email_are_claims_witness :
  exists raw claims,
    oauth2.Extra (idToken "example" "sig") "id_token" = Str raw /\
    parseIDToken testLib testProvider raw = (Some claims, None) /\
    index claims "sub" = Str "123" /\
    index claims "email" = Str "a@b.com" /\
    Username exampleUser = "a@b.com".
Proof.
  exact (FetchAuthUser_id_email_are_claims testLib testTypes testProvider
           (idToken "example" "sig") exampleUser example_fetch).
Defined.

(** C5 as stated fails: the id_token whose sub and email claims are empty
    strings is accepted, and the returned user has an empty id and an
    empty email. *)
Lemma FetchAuthUser_empty_id_email :
  exists u : AuthUser testTypes,
    FetchAuthUser testLib testTypes testProvider (idToken "blank" "sig") =
      Return (Some u, None) /\
    Id u = "" /\ Email u = "".
Proof.
  eexists. split.
  - apply (FetchAuthUser_extracts testLib testTypes testProvider
             (idToken "blank" "sig") (compact "header" "blank" "sig") blankClaims
             "" "" "A B" "http://x/y.png"); reflexivity.
  - by split.
Qed.

(** C6: on an id_token that parses and passes the issuer and audience
    checks but has no picture claim, [FetchAuthUser] does not return an
    error: it panics in the assertion [claims["picture"].(string)]. *)
Theorem FetchAuthUser_panics_without_picture :
  parseIDToken testLib testProvider (compact "header" "no-picture" "sig") =
    (Some noPictureClaims, None) /\
  FetchAuthUser testLib testTypes testProvider (idToken "no-picture" "sig") =
    Panic "interface conversion: interface {} is nil, not string".
Proof.
  assert (parseIDToken testLib testProvider (compact "header" "no-picture" "sig") =
          (Some noPictureClaims, None)) as Hparse.
  { apply parseIDToken_accepts;
      [by apply testLib_parses | by apply exampleClaims_issuer | reflexivity]. }
  split; [exact Hparse|].
  rewrite (FetchAuthUser_with_id_token testLib testTypes testProvider
             (idToken "no-picture" "sig") (compact "header" "no-picture" "sig"))
    by (reflexivity || apply compact_not_empty).
  rewrite Hparse. reflexivity.
Qed.

Lemma verified_unverified_agree (k : string) :
  k <> "email_verified" -> verifiedClaims !! k = unverifiedClaims !! k.
Proof.
  intros Hk. unfold verifiedClaims, unverifiedClaims.
  by rewrite !lookup_insert_ne.
Qed.

(** C7 as stated fails: two id_tokens whose claims differ only in
    email_verified are both accepted, and the two returned users are not
    equal, since each carries its claims in RawUser. *)
Lemma FetchAuthUser_email_verified_in_RawUser :
  jwt.ParseUnverified testLib (compact "header" "verified" "sig") = Ok verifiedClaims /\
  jwt.ParseUnverified testLib (compact "header" "unverified" "sig") = Ok unverifiedClaims /\
  (forall k, k <> "email_verified" -> verifiedClaims !! k = unverifiedClaims !! k) /\
  exists u1 u2 : AuthUser testTypes,
    FetchAuthUser testLib testTypes testProvider (idToken "verified" "sig") =
      Return (Some u1, None) /\
    FetchAuthUser testLib testTypes testProvider (idToken "unverified" "sig") =
      Return (Some u2, None) /\
    u1 <> u2.
Proof.
  split; [by apply testLib_parses|].
  split; [by apply testLib_parses|].
  split; [exact verified_unverified_agree|].
  eexists. eexists. split; [|split].
  - apply (FetchAuthUser_extracts testLib testTypes testProvider
             (idToken "verified" "sig") (compact "header" "verified" "sig") verifiedClaims
             "123" "a@b.com" "A B" "http://x/y.png"); reflexivity.
  - apply (FetchAuthUser_extracts testLib testTypes testProvider
             (idToken "unverified" "sig") (compact "header" "unverified" "sig") unverifiedClaims
             "123" "a@b.com" "A B" "http://x/y.png"); reflexivity.
  - intros Heq.
    apply (f_equal (fun u => claimsIndex (RawUser u) "email_verified")) in Heq.
    vm_compute in Heq. discriminate Heq.
Qed.

Lemma FetchAuthUser_email_verified_irrelevant_witness :
  eraseRawUser testTypes <$>
      FetchAuthUser testLib testTypes testProvider (idToken "verified" "sig") =
    eraseRawUser testTypes <$>
      FetchAuthUser testLib testTypes testProvider (idToken "unverified" "sig") /\
  (forall u, FetchAuthUser testLib testTypes testProvider (idToken "verified" "sig") =
               Return (Some u, None) ->
     index verifiedClaims "email" = Str (Email u)) /\
  FetchAuthUser testLib testTypes testProvider (idToken "verified" "sig") =
    FetchAuthUser_without_branch testLib testTypes testProvider (idToken "verified" "sig").
Proof.
  apply (FetchAuthUser_email_verified_irrelevant testLib testTypes testProvider
           (idToken "verified" "sig") (idToken "unverified" "sig")
           (compact "header" "verified" "sig") (compact "header" "unverified" "sig")
           verifiedClaims unverifiedClaims).
  - reflexivity.
  - reflexivity.
  - reflexivity.
  - reflexivity.
  - reflexivity.
  - by apply testLib_parses.
  - by apply testLib_parses.
  - exact verified_unverified_agree.
Defined.

Lemma parseIDToken_ignores_signature_witness :
  parseIDToken testLib testProvider (compact "header" "example" "sig") =
    parseIDToken testLib testProvider (compact "header" "example" "forged") /\
  FetchAuthUser testLib testTypes testProvider (idToken "example" "sig") =
    FetchAuthUser testLib testTypes testProvider (idToken "example" "forged").
Proof.
  destruct (parseIDToken_ignores_signature testLib testTypes testProvider
              "header" "example" "sig" "forged") as [Hparse Hfetch].
  - reflexivity.
  - reflexivity.
  - reflexivity.
  - reflexivity.
  - split; [exact Hparse|]. apply Hfetch; reflexivity.
Defined.


(** ** More on the library functions *)

Lemma Split_length (s : string) :
  length (strings.Split s ".") = S (countDots s).
Proof.
  induction s as [|c r IH]; [done|].
  cbn [strings.Split countDots].
  destruct (Ascii.eqb c "."); cbn [length]; [by rewrite IH|].
  destruct (strings.Split r ".") as [|x xs] eqn:E; [by destruct (Split_not_nil r ".")|].
  exact IH.
Qed.

Lemma ParseUnverified_segments (J : jwt.Lib) (raw : string) :
  countDots raw <> 2 ->
  jwt.ParseUnverified J raw =
    Err (jwt.NewValidationError "token contains an invalid number of segments"
           jwt.ValidationErrorMalformed).
Proof.
  intros Hdots. unfold jwt.ParseUnverified.
  pose proof (Split_length raw) as Hlen.
  destruct (strings.Split raw ".") as [|a [|b [|c [|d l]]]]; try done.
  simpl in Hlen. congruence.
Qed.

Lemma audStrings_fmap (l : list any) (aud : list string) :
  jwt.audStrings l = Some aud <-> l = Str <$> aud.
Proof.
  revert aud. induction l as [|x r IH]; intros aud; simpl.
  - split; [intros [= <-]; done | by destruct aud].
  - destruct x; try (split; [done | by destruct aud]).
    destruct (jwt.audStrings r) as [aud'|] eqn:E.
    + split.
      * intros [= <-]. simpl. f_equal. by apply IH.
      * destruct aud as [|a aud'']; [done|]. simpl. intros [= -> Hr].
        apply IH in Hr. by inversion Hr.
    + split; [done|]. destruct aud as [|a aud'']; [done|]. simpl. intros [= -> Hr].
      apply IH in Hr. done.
Qed.

Lemma append_empty (s t : string) : s ++ t = "" <-> s = "" /\ t = "".
Proof.
  destruct s as [|c s].
  - change ("" ++ t) with t. tauto.
  - change (String c s ++ t) with (String c (s ++ t)). split; [done | by intros [? _]].
Qed.

Lemma stringClaims_empty (aud : list string) (acc : string) :
  String.length (fold_left String.append aud acc) = 0 <->
  acc = "" /\ forall a, In a aud -> a = "".
Proof.
  revert acc. induction aud as [|a r IH]; intros acc; cbn [fold_left].
  - split.
    + intros H. split; [by destruct acc | intros a []].
    + by intros [-> _].
  - rewrite IH, append_empty. split.
    + intros [[-> ->] Hr]. split; [done|]. intros b [<-|Hb]; auto.
    + intros [-> Hall]. repeat split; [apply Hall; by left |].
      intros b Hb. apply Hall. by right.
Qed.

Lemma existsb_eqb_In (cid : string) (aud : list string) :
  existsb (fun a => String.eqb a cid) aud = true <-> In cid aud.
Proof.
  rewrite existsb_exists. split.
  - intros (a & Hin & Heq). apply String.eqb_eq in Heq. by subst.
  - intros Hin. exists cid. split; [done | apply String.eqb_refl].
Qed.

Lemma classic_strings_nonempty (aud : list string) :
  (forall a, In a aud -> a = "") \/ (exists a, In a aud /\ a <> "").
Proof.
  induction aud as [|a r [Hall|(b & Hin & Hne)]].
  - left. intros a [].
  - destruct (string_dec a "") as [->|Hne].
    + left. intros b [<-|Hb]; auto.
    + right. exists a. split; [by left | done].
  - right. exists b. split; [by right | done].
Qed.

(** With the [required] flag, [verifyAud] holds exactly of a list that
    has the compared string and is not made of empty strings only. *)
Lemma verifyAud_required_iff (aud : list string) (cid : string) :
  jwt.verifyAud aud cid true = true <->
  In cid aud /\ exists a, In a aud /\ a <> "".
Proof.
  unfold jwt.verifyAud. destruct aud as [|a0 r].
  - split; [done | by intros [[] _]].
  - destruct (Nat.eqb_spec (String.length (fold_left String.append (a0 :: r) "")) 0)
      as [Hz|Hnz].
    + apply stringClaims_empty in Hz as [_ Hall]. split; [done|].
      intros [_ (a & Hin & Hne)]. by destruct Hne; apply Hall.
    + rewrite existsb_eqb_In. split; [|tauto]. intros Hin. split; [done|].
      destruct (classic_strings_nonempty (a0 :: r)) as [Hall|Hex]; [|done].
      destruct Hnz. apply stringClaims_empty. by split.
Qed.

(** With the [required] flag, [VerifyAudience] holds exactly when [aud]
    is the compared string and that is not empty, or is an array of
    strings, not all empty, with the compared string among them. *)
Lemma VerifyAudience_required_iff (claims : gmap string any) (cid : string) :
  jwt.VerifyAudience claims cid true = true <->
  (index claims "aud" = Str cid /\ cid <> "") \/
  (exists aud : list string,
     index claims "aud" = Slice (Str <$> aud) /\ In cid aud /\
     exists a, In a aud /\ a <> "").
Proof.
  unfold jwt.VerifyAudience.
  destruct (index claims "aud") as [ | | a | | | l | ] eqn:E;
    try (split; [done | intros [[? _]|(? & ? & _)]; done]).
  - rewrite verifyAud_required_iff. split.
    + intros [[<-|[]] (b & [<-|[]] & Hne)]. by left.
    + intros [[[= ->] Hne]|(aud & ? & _)]; [|done].
      split; [by left | exists cid; split; [by left | done]].
  - destruct (jwt.audStrings l) as [aud|] eqn:Ha.
    + apply audStrings_fmap in Ha as ->. rewrite verifyAud_required_iff. split.
      * intros H. right. by exists aud.
      * intros [[? _]|(aud' & [= Heq] & H)]; [done|].
        pose proof (proj2 (audStrings_fmap (Str <$> aud) aud) eq_refl) as H1.
        pose proof (proj2 (audStrings_fmap (Str <$> aud) aud') Heq) as H2.
        rewrite H1 in H2. by injection H2 as <-.
    + split; [done|]. intros [[? _]|(aud' & [= ->] & _)]; [done|].
      assert (jwt.audStrings (Str <$> aud') = Some aud') as Hs by by apply audStrings_fmap.
      congruence.
Qed.

Section Behaviour.

Context (J : jwt.Lib) (T : types.Pkg).

Lemma parseIDToken_shape (p : Zoho) (raw : string) :
  (exists claims, parseIDToken J p raw = (Some claims, None)) \/
  (exists err, parseIDToken J p raw = (None, Some err)).
Proof.
  unfold parseIDToken.
  destruct (jwt.ParseUnverified J raw) as [claims|err]; [|by right; eexists].
  destruct (negb (isValidIssuer _ validIssuers)); [by right; eexists|].
  destruct (negb (jwt.VerifyAudience claims _ true)); [by right; eexists|].
  left. by eexists.
Qed.

(** The paths through [FetchAuthUser]. *)
Lemma FetchAuthUser_cases (p : Zoho) (token : oauth2.Token) :
  ((forall s, oauth2.Extra token "id_token" = Str s -> s = "") /\
   FetchAuthUser J T p token = Return (None, Some (errors_New "missing id_token"))) \/
  exists raw, oauth2.Extra token "id_token" = Str raw /\ raw <> "" /\
    ((exists err, parseIDToken J p raw = (None, Some err) /\
                  FetchAuthUser J T p token = Return (None, Some err)) \/
     exists claims, parseIDToken J p raw = (Some claims, None) /\
       ((exists k, firstNonString claims = Some k /\
           FetchAuthUser J T p token =
             Panic ("interface conversion: interface {} is " ++
                    typeName (index claims k) ++ ", not string")) \/
        (exists sub email name picture,
           index claims "sub" = Str sub /\ index claims "email" = Str email /\
           index claims "name" = Str name /\ index claims "picture" = Str picture /\
           firstNonString claims = None /\
           FetchAuthUser J T p token =
             Return (Some {| Id := sub; Username := email; Name := name; Email := email;
                             AvatarUrl := picture; RawUser := Some claims;
                             AccessToken := oauth2.AccessToken token;
                             RefreshToken := oauth2.RefreshToken token;
                             Expiry := fst (types.ParseDateTime T (oauth2.Expiry token)) |},
                     None)))).
Proof.
  destruct (oauth2.Extra token "id_token") as [ | | raw | | | | ] eqn:Hextra;
    try (left; split; [done | by apply FetchAuthUser_missing_id_token; rewrite Hextra]).
  destruct (String.eqb_spec raw "") as [->|Hne].
  { left. split; [by intros s [= <-] |].
    apply FetchAuthUser_missing_id_token. rewrite Hextra. by intros s [= <-]. }
  right. exists raw. split; [done|]. split; [done|].
  rewrite (FetchAuthUser_with_id_token J T p token raw Hextra Hne).
  destruct (parseIDToken_shape p raw) as [(claims & Hp)|(err & Hp)]; rewrite Hp.
  2:{ left. by exists err. }
  right. exists claims. split; [done|].
  unfold firstNonString, claimsIndex. simpl.
  destruct (index claims "sub") as [ | | sub | | | | ] eqn:Hsub;
    try (left; exists "sub"; by rewrite Hsub).
  destruct (index claims "email") as [ | | email | | | | ] eqn:Hemail;
    try (left; exists "email"; by rewrite Hemail).
  destruct (index claims "name") as [ | | name | | | | ] eqn:Hname;
    try (left; exists "name"; by rewrite Hname).
  destruct (index claims "picture") as [ | | picture | | | | ] eqn:Hpicture;
    try (left; exists "picture"; by rewrite Hpicture).
  right. exists sub, email, name, picture. repeat split.
  cbn. by destruct (index claims "email_verified") as [ | [|] | | | | | ].
Qed.

Lemma parseIDToken_error_kinds (p : Zoho) (raw : string) (claims : MapClaims) (err : error) :
  parseIDToken J p raw = (claims, Some err) ->
  claims = None /\
  ((exists e, jwt.ParseUnverified J raw = Err e /\
              err = fmt_Errorf_w "failed to parse id_token: " e) \/
   (exists iss, err = fmt_Errorf_s "invalid id_token issuer: " iss /\ ~ In iss validIssuers) \/
   err = errors_New "invalid id_token audience").
Proof.
  unfold parseIDToken.
  destruct (jwt.ParseUnverified J raw) as [c|e].
  - destruct (isValidIssuer _ validIssuers) eqn:Hiss; cbn [negb].
    + destruct (jwt.VerifyAudience c _ true); cbn [negb]; [done|].
      intros [= <- <-]. auto.
    + intros [= <- <-]. split; [done|]. right. left. eexists. split; [done|].
      rewrite <- isValidIssuer_In. by rewrite Hiss.
  - intros [= <- <-]. split; [done|]. left. by exists e.
Qed.

(** X1: [parseIDToken] returns either claims and a nil error or nil
    claims and an error, and [FetchAuthUser], when it returns, returns
    either a user and a nil error or a nil user and an error. *)
Theorem results_all_or_nothing (p : Zoho) (raw : string) (token : oauth2.Token) :
  ((exists claims, parseIDToken J p raw = (Some claims, None)) \/
   (exists err, parseIDToken J p raw = (None, Some err))) /\
  forall u e, FetchAuthUser J T p token = Return (u, e) ->
    (is_Some u /\ e = None) \/ (u = None /\ is_Some e).
Proof.
  split; [apply parseIDToken_shape|].
  intros u e H.
  destruct (FetchAuthUser_cases p token)
    as [[_ Hf]|(r & _ & _ & [(err & _ & Hf)|(c & _ & [(k & _ & Hf)|(? & ? & ? & ? & _ & _ & _ & _ & _ & Hf)])])];
    rewrite Hf in H; inversion H; subst; eauto.
Qed.

(** X2: [FetchAuthUser] returns a user exactly when the id_token extra
    field is a string that [parseIDToken] accepts and whose claims sub,
    email, name and picture are strings; the user then has these as id,
    email (also as username), name and avatarUrl, the whole claims map
    as RawUser, the access and refresh tokens of the token, and the
    converted expiry. *)
Theorem FetchAuthUser_success_iff (p : Zoho) (token : oauth2.Token) (u : AuthUser T) :
  FetchAuthUser J T p token = Return (Some u, None) <->
  exists raw claims sub email name picture,
    oauth2.Extra token "id_token" = Str raw /\
    parseIDToken J p raw = (Some claims, None) /\
    index claims "sub" = Str sub /\ index claims "email" = Str email /\
    index claims "name" = Str name /\ index claims "picture" = Str picture /\
    u = {| Id := sub; Username := email; Name := name; Email := email;
           AvatarUrl := picture; RawUser := Some claims;
           AccessToken := oauth2.AccessToken token;
           RefreshToken := oauth2.RefreshToken token;
           Expiry := fst (types.ParseDateTime T (oauth2.Expiry token)) |}.
Proof.
  split.
  - intros H.
    destruct (FetchAuthUser_cases p token)
      as [[_ Hf]|(raw & Hx & _ & [(err & _ & Hf)|(c & Hp & [(k & _ & Hf)|(sub & email & name & picture & ? & ? & ? & ? & _ & Hf)])])];
      rewrite Hf in H; try discriminate H.
    inversion H; subst u. by exists raw, c, sub, email, name, picture.
  - intros (raw & claims & sub & email & name & picture & Hx & Hp & ? & ? & ? & ? & ->).
    by apply (FetchAuthUser_extracts J T p token raw claims).
Qed.

(** X3: [FetchAuthUser] panics exactly when the id_token extra field is
    a string that [parseIDToken] accepts and one of the claims sub,
    email, name, picture does not hold a string; the message names the
    dynamic type of the first such claim in this order. *)
Theorem FetchAuthUser_panic_iff (p : Zoho) (token : oauth2.Token) (msg : string) :
  FetchAuthUser J T p token = Panic msg <->
  exists raw claims k,
    oauth2.Extra token "id_token" = Str raw /\
    parseIDToken J p raw = (Some claims, None) /\
    firstNonString claims = Some k /\
    msg = "interface conversion: interface {} is " ++ typeName (index claims k) ++
          ", not string".
Proof.
  destruct (FetchAuthUser_cases p token)
    as [[Hnone Hf]|(raw & Hx & Hne & [(err & Hp & Hf)|(c & Hp & [(k & Hk & Hf)|(sub & email & name & picture & _ & _ & _ & _ & Hk & Hf)])])];
    rewrite Hf; split; try discriminate.
  - intros (raw & claims & k & Hx & Hp & _). rewrite (Hnone raw Hx) in Hp.
    apply parseIDToken_accepted_inv in Hp as (c & _ & Hc & _).
    by apply ParseUnverified_empty in Hc.
  - intros (raw' & claims & k & Hx' & Hp' & _). congruence.
  - intros [= <-]. by exists raw, c, k.
  - intros (raw' & claims & k' & Hx' & Hp' & Hk' & ->).
    assert (raw' = raw) as -> by congruence.
    assert (claims = c) as -> by congruence.
    by assert (k' = k) as -> by congruence.
  - intros (raw' & claims & k' & Hx' & Hp' & Hk' & _).
    assert (raw' = raw) as -> by congruence.
    assert (claims = c) as -> by congruence. congruence.
Qed.

(** X4: an error returned by [FetchAuthUser] comes with a nil user and
    is one of four: "missing id_token", the parser's error wrapped behind
    "failed to parse id_token: ", "invalid id_token issuer: " followed by
    an issuer outside the allow-list, or "invalid id_token audience". *)
Theorem FetchAuthUser_error_kinds (p : Zoho) (token : oauth2.Token)
    (u : option (AuthUser T)) (err : error) :
  FetchAuthUser J T p token = Return (u, Some err) ->
  u = None /\
  (err = errors_New "missing id_token" \/
   (exists e, err = wrapError ("failed to parse id_token: " ++ Error e) e) \/
   (exists iss, err = errorString ("invalid id_token issuer: " ++ iss) /\
                ~ In iss validIssuers) \/
   err = errors_New "invalid id_token audience").
Proof.
  intros H.
  destruct (FetchAuthUser_cases p token)
    as [[_ Hf]|(raw & _ & _ & [(err' & Hp & Hf)|(c & _ & [(k & _ & Hf)|(? & ? & ? & ? & _ & _ & _ & _ & _ & Hf)])])];
    rewrite Hf in H; inversion H; subst; auto.
  split; [done|]. right.
  apply parseIDToken_error_kinds in Hp as [_ [(e & _ & ->)|[(iss & -> & Hiss)| ->]]].
  - left. by exists e.
  - right. left. by exists iss.
  - by right; right.
Qed.

(** X5: of the token, [FetchAuthUser] reads the id_token extra field,
    the access token, the refresh token and the expiry only: two tokens
    that agree on these get the same outcome, whatever their token type
    and other extra fields. *)
Theorem FetchAuthUser_token_frame (p : Zoho) (token1 token2 : oauth2.Token) :
  oauth2.Extra token1 "id_token" = oauth2.Extra token2 "id_token" ->
  oauth2.AccessToken token1 = oauth2.AccessToken token2 ->
  oauth2.RefreshToken token1 = oauth2.RefreshToken token2 ->
  oauth2.Expiry token1 = oauth2.Expiry token2 ->
  FetchAuthUser J T p token1 = FetchAuthUser J T p token2.
Proof.
  intros Hx Hat Hrt Hexp. unfold FetchAuthUser. by rewrite Hx, Hat, Hrt, Hexp.
Qed.

(** X6: of the provider, [parseIDToken] and [FetchAuthUser] read the
    client id only: two providers with the same client id give the same
    results, whatever their secret, URLs and scopes. *)
Theorem FetchAuthUser_provider_frame (p1 p2 : Zoho) (raw : string) (token : oauth2.Token) :
  clientId (base p1) = clientId (base p2) ->
  parseIDToken J p1 raw = parseIDToken J p2 raw /\
  FetchAuthUser J T p1 token = FetchAuthUser J T p2 token.
Proof.
  intros Hcid.
  assert (forall r, parseIDToken J p1 r = parseIDToken J p2 r) as Hp.
  { intros r. unfold parseIDToken. by rewrite Hcid. }
  split; [apply Hp|].
  unfold FetchAuthUser.
  destruct (assertStringOk (oauth2.Extra token "id_token")) as [r ok].
  by rewrite Hp.
Qed.

(** X7: an id_token that does not have exactly two dots is rejected by
    [parseIDToken] with the wrapped error "token contains an invalid
    number of segments", and [FetchAuthUser] returns that error for it
    unless it is empty. *)
Theorem parseIDToken_rejects_segments (p : Zoho) (raw : string) :
  countDots raw <> 2 ->
  let err := fmt_Errorf_w "failed to parse id_token: "
               (jwt.NewValidationError "token contains an invalid number of segments"
                  jwt.ValidationErrorMalformed) in
  parseIDToken J p raw = (None, Some err) /\
  forall token, oauth2.Extra token "id_token" = Str raw -> raw <> "" ->
    FetchAuthUser J T p token = Return (None, Some err).
Proof.
  intros Hdots err.
  assert (parseIDToken J p raw = (None, Some err)) as Hp.
  { unfold parseIDToken. by rewrite (ParseUnverified_segments J raw Hdots). }
  split; [exact Hp|].
  intros token Hx Hne.
  by rewrite (FetchAuthUser_with_id_token J T p token raw Hx Hne), Hp.
Qed.

(** X8: although no signature is verified, [parseIDToken] rejects, with
    a wrapped parser error, every compact id_token whose header has no
    string alg naming a registered signing method, whatever its claims. *)
Theorem parseIDToken_requires_alg (p : Zoho) (header payload signature : string)
    (headerBytes : list byte) (Header : gmap string any) :
  dotFree header = true -> dotFree payload = true -> dotFree signature = true ->
  jwt.DecodeSegment J header = Ok headerBytes ->
  jwt.json_Unmarshal J headerBytes = Ok Header ->
  (forall method, index Header "alg" = Str method -> jwt.GetSigningMethod J method = false) ->
  exists e, parseIDToken J p (compact header payload signature) =
              (None, Some (fmt_Errorf_w "failed to parse id_token: " e)).
Proof.
  intros Hh Hp Hs Hdec Hjson Halg.
  unfold parseIDToken, jwt.ParseUnverified.
  rewrite Split_compact by done. rewrite Hdec, Hjson.
  destruct (jwt.DecodeSegment J payload) as [claimBytes|e]; [|by eexists].
  destruct (jwt.json_Decode J claimBytes) as [claims|e]; [|by eexists].
  destruct (index Header "alg") as [ | | method | | | | ] eqn:E; try by eexists.
  rewrite (Halg method eq_refl). by eexists.
Qed.

(** X9: on parsed claims that pass the issuer check, [parseIDToken]
    accepts exactly when aud is the client id and that is not empty, or
    aud is an array of strings, not all of them empty, with the client id
    among them; an array with an element that is not a string is
    rejected. *)
Theorem parseIDToken_audience_iff (p : Zoho) (raw : string) (claims : gmap string any) :
  jwt.ParseUnverified J raw = Ok claims ->
  issuerAccepted claims ->
  parseIDToken J p raw = (Some claims, None) <->
  (index claims "aud" = Str (clientId (base p)) /\ clientId (base p) <> "") \/
  (exists aud : list string,
     index claims "aud" = Slice (Str <$> aud) /\ In (clientId (base p)) aud /\
     exists a, In a aud /\ a <> "").
Proof.
  intros Hparse Hiss. rewrite <- VerifyAudience_required_iff. split.
  - intros Hp. apply parseIDToken_accepted_inv in Hp as (c & [= <-] & _ & _ & Haud).
    exact Haud.
  - intros Haud. by apply parseIDToken_accepts.
Qed.

(** X10: a provider whose client id is empty, as [NewZohoProvider]
    leaves it, rejects every id_token whose aud claim is a string. *)
Theorem parseIDToken_unset_clientId (p : Zoho) (raw : string) (claims : gmap string any)
    (a : string) :
  clientId (base p) = "" ->
  jwt.ParseUnverified J raw = Ok claims ->
  index claims "aud" = Str a ->
  exists err, parseIDToken J p raw = (None, Some err).
Proof.
  intros Hcid Hparse Haud.
  destruct (parseIDToken_shape p raw) as [(c & Hp)|Herr]; [|exact Herr].
  apply parseIDToken_accepted_inv in Hp as (c' & _ & Hc & _ & Hv).
  assert (c' = claims) as -> by congruence.
  apply VerifyAudience_required_iff in Hv as [[_ Hne]|(aud & Hs & _)]; congruence.
Qed.

End Behaviour.

(** ** The behaviour on the test tokens *)

Lemma audienceLib_parses (payload signature : string) (claims : gmap string any) :
  dotFree payload = true -> dotFree signature = true ->
  audiencePayloads !! payload = Some claims ->
  jwt.ParseUnverified audienceLib (compact "header" payload signature) = Ok claims.
Proof.
  intros Hp Hs Hl. unfold jwt.ParseUnverified.
  rewrite Split_compact by done. simpl.
  rewrite string_of_list_byte_of_string. by rewrite Hl.
Defined.

Lemma FetchAuthUser_success_iff_witness :
  FetchAuthUser testLib testTypes testProvider (idToken "example" "sig") =
    Return (Some exampleUser, None).
Proof.
  apply (proj2 (FetchAuthUser_success_iff testLib testTypes testProvider
                  (idToken "example" "sig") exampleUser)).
  exists (compact "header" "example" "sig"), exampleClaims,
    "123", "a@b.com", "A B", "http://x/y.png".
  repeat split.
Defined.

Lemma FetchAuthUser_panic_iff_witness :
  FetchAuthUser testLib testTypes testProvider (idToken "no-picture" "sig") =
    Panic "interface conversion: interface {} is nil, not string".
Proof.
  apply (proj2 (FetchAuthUser_panic_iff testLib testTypes testProvider
                  (idToken "no-picture" "sig")
                  "interface conversion: interface {} is nil, not string")).
  exists (compact "header" "no-picture" "sig"), noPictureClaims, "picture".
  repeat split.
Defined.

Lemma FetchAuthUser_error_kinds_witness :
  @None (AuthUser testTypes) = None /\
  (errors_New "invalid id_token audience" = errors_New "missing id_token" \/
   (exists e, errors_New "invalid id_token audience" =
                wrapError ("failed to parse id_token: " ++ Error e) e) \/
   (exists iss, errors_New "invalid id_token audience" =
                  errorString ("invalid id_token issuer: " ++ iss) /\
                ~ In iss validIssuers) \/
   errors_New "invalid id_token audience" = errors_New "invalid id_token audience").
Proof.
  apply (FetchAuthUser_error_kinds testLib testTypes testProvider
           (idToken "other-aud" "sig")).
  reflexivity.
Defined.

Lemma FetchAuthUser_token_frame_witness :
  FetchAuthUser testLib testTypes testProvider (idToken "example" "sig") =
  FetchAuthUser testLib testTypes testProvider macToken.
Proof.
  apply (FetchAuthUser_token_frame testLib testTypes testProvider
           (idToken "example" "sig") macToken); reflexivity.
Defined.

Lemma FetchAuthUser_provider_frame_witness :
  parseIDToken testLib testProvider (compact "header" "example" "sig") =
    parseIDToken testLib (withClientSecret "secret-1" testProvider)
      (compact "header" "example" "sig") /\
  FetchAuthUser testLib testTypes testProvider (idToken "example" "sig") =
    FetchAuthUser testLib testTypes (withClientSecret "secret-1" testProvider)
      (idToken "example" "sig").
Proof.
  apply (FetchAuthUser_provider_frame testLib testTypes testProvider
           (withClientSecret "secret-1" testProvider)).
  reflexivity.
Defined.

Lemma parseIDToken_rejects_segments_witness :
  parseIDToken testLib testProvider "header.example" =
    (None, Some (wrapError
                   "failed to parse id_token: token contains an invalid number of segments"
                   (ValidationError None 1 "token contains an invalid number of segments"))) /\
  forall token, oauth2.Extra token "id_token" = Str "header.example" ->
    "header.example" <> "" ->
    FetchAuthUser testLib testTypes testProvider token =
      Return (None, Some (wrapError
                   "failed to parse id_token: token contains an invalid number of segments"
                   (ValidationError None 1 "token contains an invalid number of segments"))).
Proof.
  apply (parseIDToken_rejects_segments testLib testTypes testProvider "header.example").
  vm_compute. discriminate.
Defined.

Lemma parseIDToken_requires_alg_witness :
  exists e,
    parseIDToken (headerLib {[ "typ" := Str "JWT" ]} testPayloads) testProvider
      (compact "header" "example" "sig") =
    (None, Some (fmt_Errorf_w "failed to parse id_token: " e)).
Proof.
  apply (parseIDToken_requires_alg (headerLib {[ "typ" := Str "JWT" ]} testPayloads)
           testProvider "header" "example" "sig"
           (list_byte_of_string "header") {[ "typ" := Str "JWT" ]}).
  - reflexivity.
  - reflexivity.
  - reflexivity.
  - reflexivity.
  - reflexivity.
  - intros method H. vm_compute in H. discriminate H.
Defined.

Lemma parseIDToken_audience_iff_witness :
  parseIDToken audienceLib testProvider (compact "header" "multi" "sig") =
    (Some multiAudienceClaims, None).
Proof.
  apply (proj2 (parseIDToken_audience_iff audienceLib testProvider
                  (compact "header" "multi" "sig") multiAudienceClaims
                  (audienceLib_parses "multi" "sig" multiAudienceClaims
                     eq_refl eq_refl eq_refl)
                  (exampleClaims_issuer multiAudienceClaims eq_refl))).
  right. exists ["client-0"; "client-1"].
  split; [reflexivity|]. split; [right; left; reflexivity|].
  exists "client-0". split; [left; reflexivity | discriminate].
Defined.

Lemma parseIDToken_unset_clientId_witness :
  exists err,
    parseIDToken testLib zohoDefaults (compact "header" "example" "sig") = (None, Some err).
Proof.
  apply (parseIDToken_unset_clientId testLib zohoDefaults
           (compact "header" "example" "sig") exampleClaims "client-1").
  - reflexivity.
  - by apply testLib_parses.
  - reflexivity.
Defined.
